(** * app.py: the expert-persona chat form, embedded and verified

    The script is a Streamlit page that is executed top to bottom on every
    interaction.  Its statements are embedded as computations in a small
    state-and-exception monad: the state holds the module globals the script
    binds and the chronological log of everything the run did to the page and
    to the network; an outcome is either a value or a raised Python
    exception.  What the run reads from outside (process environment, widget
    values, the completion service) is collected in one record. *)

From Stdlib Require Import String Ascii List Bool PrimFloat.
Import ListNotations.

Set Warnings "-inexact-float".
Local Open Scope string_scope.

(** ** Python values and exceptions *)

(** The values the script handles that may be [None]: the result of
    [os.getenv], and the [content] attribute of a completion message. *)
Inductive py_value : Type :=
| PyNone
| PyStr (s : string).

(** Truth value testing: [None] and the empty string are false. *)
Definition truthy (v : py_value) : bool :=
  match v with
  | PyNone => false
  | PyStr s => negb (s =? EmptyString)
  end.

Definition is_str (v : py_value) : bool :=
  match v with
  | PyStr _ => true
  | PyNone => false
  end.

(** The exception classes that can occur: Python's built-in ones, those of
    the openai client, and Streamlit's script-control exceptions. *)
Inductive exc_class : Type :=
| BaseException | Exception | SystemExit | KeyboardInterrupt
| LookupError | IndexError | KeyError | NameError
| OpenAIError | APIError | APIConnectionError | APITimeoutError
| APIStatusError | AuthenticationError | RateLimitError
| InternalServerError | APIResponseValidationError
| ScriptControlException | StopException.

Scheme Equality for exc_class.

(** The direct base class of each class. *)
Definition base (c : exc_class) : option exc_class :=
  match c with
  | BaseException => None
  | Exception | SystemExit | KeyboardInterrupt => Some BaseException
  | LookupError | NameError | OpenAIError => Some Exception
  | IndexError | KeyError => Some LookupError
  | APIError => Some OpenAIError
  | APIConnectionError | APIStatusError | APIResponseValidationError =>
      Some APIError
  | APITimeoutError => Some APIConnectionError
  | AuthenticationError | RateLimitError | InternalServerError =>
      Some APIStatusError
  | ScriptControlException => Some BaseException
  | StopException => Some ScriptControlException
  end.

Fixpoint ancestors (fuel : nat) (c : exc_class) : list exc_class :=
  c :: match fuel with
       | O => []
       | S fuel' =>
           match base c with
           | None => []
           | Some b => ancestors fuel' b
           end
       end.

Definition issubclass (c d : exc_class) : bool :=
  existsb (exc_class_beq d) (ancestors 19 c).

(** An exception object: its class and the text [str(e)] gives. *)
Record exc : Type := mkExc { exc_type : exc_class; exc_str : string }.

Definition isinstance (e : exc) (c : exc_class) : bool :=
  issubclass (exc_type e) c.

(** ** [repr] of a string, as [str(KeyError(key))] prints the key *)

Definition hex_digit (n : nat) : string :=
  String.substring n 1 "0123456789abcdef".

Definition contains (a : ascii) (s : string) : bool :=
  existsb (Ascii.eqb a) (list_ascii_of_string s).

Definition repr_char (quote a : ascii) : string :=
  let n := nat_of_ascii a in
  if (Ascii.eqb a quote || Ascii.eqb a "\")%bool then
    String "\" (String a EmptyString)
  else if Nat.eqb n 9 then "\t"
  else if Nat.eqb n 10 then "\n"
  else if Nat.eqb n 13 then "\r"
  else if (Nat.ltb n 32 || Nat.eqb n 127)%bool then
    "\x" ++ hex_digit (Nat.div n 16) ++ hex_digit (Nat.modulo n 16)
  else String a EmptyString.

Definition double_quote : ascii := ascii_of_nat 34.

(** Bytes above 127 belong to the UTF-8 encoding of a non-ASCII code point
    and are kept, as [repr] keeps printable non-ASCII characters. *)
Definition repr (s : string) : string :=
  let quote : ascii :=
    if (contains "'" s && negb (contains double_quote s))%bool
    then double_quote
    else "'"%char in
  String quote
    (String.concat EmptyString
       (map (repr_char quote) (list_ascii_of_string s)))
  ++ String quote EmptyString.

(** ** Dictionaries with string keys and values, in insertion order *)

Definition dict : Type := list (string * string).

Fixpoint dict_setitem (d : dict) (k v : string) : dict :=
  match d with
  | [] => [(k, v)]
  | (k', v') :: t =>
      if k' =? k then (k', v) :: t else (k', v') :: dict_setitem t k v
  end.

(** A dict display [{k1: v1, ..., kn: vn}] inserts its items left to right. *)
Definition dict_display (items : list (string * string)) : dict :=
  fold_left (fun d kv => dict_setitem d (fst kv) (snd kv)) items [].

Definition dict_keys (d : dict) : list string := map fst d.

Fixpoint dict_get (d : dict) (k : string) : option string :=
  match d with
  | [] => None
  | (k', v) :: t => if k' =? k then Some v else dict_get t k
  end.

(** ** The completion service, as the openai client presents it *)

(** The client handle [OpenAI(api_key=...)]. *)
Record OpenAI : Type := mkOpenAI { client_api_key : string }.

(** The keyword arguments of [client.chat.completions.create].  Every
    message is a dict from the keys "role" and "content" to strings. *)
Record create_kwargs : Type := mkCreate {
  model : string;
  messages : list dict;
  temperature : float;
  max_tokens : nat
}.

(** The response object, read as [response.choices[0].message.content];
    [content] is declared optional by the client library. *)
Record ChatCompletionMessage : Type := mkMessage { content : py_value }.
Record Choice : Type := mkChoice { message : ChatCompletionMessage }.
Record ChatCompletion : Type := mkCompletion { choices : list Choice }.

Inductive remote_outcome : Type :=
| Returns (response : ChatCompletion)
| Raises (e : exc).

(** One outbound call: the client handle used and the payload sent. *)
Definition api_call : Type := (OpenAI * create_kwargs)%type.

(** ** What a script run reads from outside *)

(** [os_environ] is the process environment once [load_dotenv()] has merged
    the .env file into it.  The three widget fields are what the widget
    calls return in this run.  The service answers a call knowing the calls
    made before it, so a stub may answer the same payload differently over
    time. *)
Record outside : Type := mkOutside {
  os_environ : string -> option string;
  radio_return : string;
  text_area_return : string;
  button_return : bool;
  chat_completions : list api_call -> api_call -> remote_outcome
}.

(** ** Effects and program state *)

(** Everything a run does to the page, and each outbound call, in order. *)
Inductive effect : Type :=
| StError (body : string)
| StWarning (body : string)
| StSetPageConfig (page_title layout : string)
| StTitle (body : string)
| StMarkdown (body : string)
| StRadio (label : string) (options : list string) (index : nat)
| StTextArea (label : string) (height : nat)
| StButton (label : string)
| StSpinnerEnter (text : string)
| StSpinnerExit
| StSubheader (body : string)
| StWrite (v : py_value)
| ChatCompletionsCreate (call : api_call).

Definition is_call (e : effect) : bool :=
  match e with
  | ChatCompletionsCreate _ => true
  | _ => false
  end.

(** The page output among the effects: all but the outbound calls. *)
Definition is_ui (e : effect) : bool := negb (is_call e).

Definition is_form_element (e : effect) : bool :=
  match e with
  | StRadio _ _ _ | StTextArea _ _ | StButton _ => true
  | _ => false
  end.

Definition is_warning (e : effect) : bool :=
  match e with
  | StWarning _ => true
  | _ => false
  end.

Fixpoint calls_of (t : list effect) : list api_call :=
  match t with
  | [] => []
  | ChatCompletionsCreate c :: t' => c :: calls_of t'
  | _ :: t' => calls_of t'
  end.

(** The module-level names that are read away from where they are bound:
    [client] inside [get_llm_response], [expert_roles] in the button
    handler.  [None] is a name not bound yet. *)
Record module_globals : Type := mkGlobals {
  var_client : option OpenAI;
  var_expert_roles : option dict
}.

Record world : Type := mkWorld {
  globals : module_globals;
  trace : list effect
}.

Definition initial_world : world :=
  {| globals := {| var_client := None; var_expert_roles := None |};
     trace := [] |}.

(** ** The monad of script statements *)

Inductive outcome (A : Type) : Type :=
| Normal (a : A)
| Raised (e : exc).

Arguments Normal {A} a.
Arguments Raised {A} e.

Definition M (A : Type) : Type := world -> outcome A * world.

Definition ret {A : Type} (a : A) : M A := fun w => (Normal a, w).

Definition bind {A B : Type} (m : M A) (k : A -> M B) : M B :=
  fun w =>
    match m w with
    | (Normal a, w') => k a w'
    | (Raised e, w') => (Raised e, w')
    end.

Definition raise {A : Type} (e : exc) : M A := fun w => (Raised e, w).

Notation "x <- m ;; k" := (bind m (fun x => k))
  (at level 61, m at next level, right associativity).
Notation "m ;; k" := (bind m (fun _ => k))
  (at level 61, right associativity).

(** [try: body / except c as e: handler e]: an exception that is an
    instance of [c] is handled, any other one propagates. *)
Definition try_except {A : Type} (body : M A) (c : exc_class)
    (handler : exc -> M A) : M A :=
  fun w =>
    match body w with
    | (Normal a, w') => (Normal a, w')
    | (Raised e, w') =>
        if isinstance e c then handler e w' else (Raised e, w')
    end.

(** The world once [e] has happened. *)
Definition log (e : effect) (w : world) : world :=
  {| globals := globals w; trace := (trace w ++ [e])%list |}.

Definition emit (e : effect) : M unit := fun w => (Normal tt, log e w).

Definition set_client (c : OpenAI) : M unit :=
  fun w =>
    (Normal tt,
     {| globals := {| var_client := Some c;
                      var_expert_roles := var_expert_roles (globals w) |};
        trace := trace w |}).

Definition set_expert_roles (d : dict) : M unit :=
  fun w =>
    (Normal tt,
     {| globals := {| var_client := var_client (globals w);
                      var_expert_roles := Some d |};
        trace := trace w |}).

Definition name_error (name : string) : exc :=
  mkExc NameError ("name '" ++ name ++ "' is not defined").

Definition get_client : M OpenAI :=
  fun w =>
    match var_client (globals w) with
    | Some c => (Normal c, w)
    | None => (Raised (name_error "client"), w)
    end.

Definition get_expert_roles : M dict :=
  fun w =>
    match var_expert_roles (globals w) with
    | Some d => (Normal d, w)
    | None => (Raised (name_error "expert_roles"), w)
    end.

(** [d[k]]: a missing key raises [KeyError(k)]. *)
Definition dict_getitem (d : dict) (k : string) : M string :=
  match dict_get d k with
  | Some v => ret v
  | None => raise (mkExc KeyError (repr k))
  end.

(** [l[0]] on a list. *)
Definition list_getitem_0 {A : Type} (l : list A) : M A :=
  match l with
  | x :: _ => ret x
  | [] => raise (mkExc IndexError "list index out of range")
  end.

(** ** Streamlit calls *)

Definition st_error (body : string) : M unit := emit (StError body).
Definition st_warning (body : string) : M unit := emit (StWarning body).
Definition st_set_page_config (page_title layout : string) : M unit :=
  emit (StSetPageConfig page_title layout).
Definition st_title (body : string) : M unit := emit (StTitle body).
Definition st_markdown (body : string) : M unit := emit (StMarkdown body).
Definition st_subheader (body : string) : M unit := emit (StSubheader body).
Definition st_write (v : py_value) : M unit := emit (StWrite v).

(** [st.stop()] ends the run by raising a script-control exception, which
    is not an [Exception]. *)
Definition st_stop {A : Type} : M A := raise (mkExc StopException EmptyString).

(** [with st.spinner(text): body]: the spinner is removed when the block is
    left, normally or by an exception, and the exception goes on. *)
Definition with_st_spinner {A : Type} (text : string) (body : M A) : M A :=
  fun w =>
    match (emit (StSpinnerEnter text) ;; body) w with
    | (r, w') => (r, log StSpinnerExit w')
    end.

(** ** The script *)

Section Script.

(** The surroundings of one run. *)
Variable out : outside.

(** [load_dotenv()]: its result is already part of [os_environ]. *)
Definition load_dotenv : M unit := ret tt.

Definition os_getenv (name : string) : M py_value :=
  ret match os_environ out name with
      | Some s => PyStr s
      | None => PyNone
      end.

(** [OpenAI(api_key=...)]: without a key argument the client falls back to
    the environment and refuses to start when there is none either. *)
Definition OpenAI_new (api_key : py_value) : M OpenAI :=
  match api_key with
  | PyStr k => ret (mkOpenAI k)
  | PyNone =>
      match os_environ out "OPENAI_API_KEY" with
      | Some k => ret (mkOpenAI k)
      | None =>
          raise (mkExc OpenAIError
            "The api_key client option must be set either by passing api_key to the client or by setting the OPENAI_API_KEY environment variable")
      end
  end.

(** The widgets draw themselves and return what the user has set. *)
Definition st_radio (label : string) (options : list string) (index : nat)
    : M string :=
  emit (StRadio label options index) ;; ret (radio_return out).

Definition st_text_area (label : string) (height : nat) : M string :=
  emit (StTextArea label height) ;; ret (text_area_return out).

Definition st_button (label : string) : M bool :=
  emit (StButton label) ;; ret (button_return out).

(** [client.chat.completions.create] with its keyword arguments: the global [client] is
    looked up, the call goes out, and the service answers or raises. *)
Definition chat_completions_create (kwargs : create_kwargs)
    : M ChatCompletion :=
  c <- get_client ;;
  fun w =>
    let w' := log (ChatCompletionsCreate (c, kwargs)) w in
    match chat_completions out (calls_of (trace w)) (c, kwargs) with
    | Returns response => (Normal response, w')
    | Raises e => (Raised e, w')
    end.

(** app.py, lines 40-45. *)
Definition expert_roles : dict :=
  dict_display
    [("ITコンサルタント",
      "あなたはITコンサルタントです。技術的な課題解決、システム導入、DX推進に関する専門知識を持ち、論理的かつ実践的なアドバイスを提供します。");
     ("料理研究家",
      "あなたは料理研究家です。食材の知識、調理法、栄養バランス、食文化に精通しており、美味しくて健康的なレシピや食に関する情報を提供します。");
     ("歴史学者",
      "あなたは歴史学者です。世界史、日本史、文化史など幅広い歴史的知識を持ち、客観的な事実に基づいた深い洞察と解説を提供します。");
     ("キャリアアドバイザー",
      "あなたはキャリアアドバイザーです。個人のスキル、経験、興味を考慮し、転職、キャリアアップ、自己成長に関する具体的なアドバイスとサポートを提供します。")].

(** The payload of lines 63-71. *)
Definition request_payload (user_input expert_system_message : string)
    : create_kwargs :=
  {| model := "gpt-3.5-turbo";
     messages :=
       [dict_display [("role", "system"); ("content", expert_system_message)];
        dict_display [("role", "user"); ("content", user_input)]];
     temperature := 0.7;
     max_tokens := 500 |}.

Definition failure_message : string := "回答の取得に失敗しました。".

Definition error_report (e : exc) : string :=
  "LLMからの回答取得中にエラーが発生しました: " ++ exc_str e.

(** The body of the [try] block, lines 63-73. *)
Definition get_llm_response_try (user_input expert_system_message : string)
    : M py_value :=
  response <- chat_completions_create
                (request_payload user_input expert_system_message) ;;
  first_choice <- list_getitem_0 (choices response) ;;
  ret (content (message first_choice)).

(** app.py, lines 49-76. *)
Definition get_llm_response (user_input expert_system_message : string)
    : M py_value :=
  try_except
    (get_llm_response_try user_input expert_system_message)
    Exception
    (fun e => st_error (error_report e) ;; ret (PyStr failure_message)).

Definition subheader_of (selected_expert : string) : string :=
  "✨ " ++ selected_expert ++ "からの回答:".

(** The button handler, lines 92-104. *)
Definition on_submit (selected_expert user_question : string) : M unit :=
  if truthy (PyStr user_question) then
    with_st_spinner "専門家が回答を考えています..."
      (roles <- get_expert_roles ;;
       system_message_for_llm <- dict_getitem roles selected_expert ;;
       llm_answer <- get_llm_response user_question system_message_for_llm ;;
       st_subheader (subheader_of selected_expert) ;;
       st_write llm_answer)
  else
    st_warning "質問を入力してください。".

Definition missing_key_message : string :=
  "OpenAI APIキーが設定されていません。.envファイルまたはStreamlit CloudのSecretsに設定してください。".

Definition intro_markdown : string := "
このアプリは、あなたの質問に対して、選択した専門家の視点からLLM（大規模言語モデル）が回答します。
以下の手順でご利用ください：

1.  **専門家を選択:** ラジオボタンから、回答してほしい専門家の種類を選びます。
2.  **質問を入力:** 下のテキストボックスに質問を入力します。
3.  **送信:** 「回答を生成」ボタンをクリックすると、LLMが回答を生成します。

様々な専門家になりきったLLMの回答をお楽しみください！
".

(** The whole script, lines 8-104, in statement order. *)
Definition app : M unit :=
  load_dotenv ;;
  api_key <- os_getenv "OPENAI_API_KEY" ;;
  (if negb (truthy api_key)
   then st_error missing_key_message ;; st_stop
   else ret tt) ;;
  c <- OpenAI_new api_key ;;
  set_client c ;;
  st_set_page_config "専門家チャットアプリ" "centered" ;;
  st_title "🤖 専門家チャットアプリ" ;;
  st_markdown intro_markdown ;;
  set_expert_roles expert_roles ;;
  roles <- get_expert_roles ;;
  selected_expert <- st_radio "回答してほしい専門家を選択してください:"
                       (dict_keys roles) 0 ;;
  user_question <- st_text_area "ここに質問を入力してください:" 150 ;;
  clicked <- st_button "回答を生成" ;;
  if clicked : bool
  then on_submit selected_expert user_question
  else ret tt.

(** One run of the script from a fresh module namespace and an empty page. *)
Definition run : outcome unit * world := app initial_world.

End Script.

(** ** Vocabulary of the statements *)

(** The page as it stands when the script has drawn the form and no
    submission is being handled: lines 23-35 and 81-91. *)
Definition page_form : list effect :=
  [StSetPageConfig "専門家チャットアプリ" "centered";
   StTitle "🤖 専門家チャットアプリ";
   StMarkdown intro_markdown;
   StRadio "回答してほしい専門家を選択してください:" (dict_keys expert_roles) 0;
   StTextArea "ここに質問を入力してください:" 150;
   StButton "回答を生成"].

(** The state in which the button handler starts when the key is [k]. *)
Definition form_world (k : string) : world :=
  {| globals := {| var_client := Some (mkOpenAI k);
                   var_expert_roles := Some expert_roles |};
     trace := page_form |}.

(** The state in which a run without a usable key ends: nothing bound,
    only the error box on the page. *)
Definition halted_world : world :=
  log (StError missing_key_message) initial_world.

(** A question text that is empty or made of whitespace only, by the
    characters [str.isspace] accepts among the ASCII ones. *)
Definition is_space (a : ascii) : bool :=
  let n := nat_of_ascii a in
  (Nat.eqb n 32 || (Nat.leb 9 n && Nat.leb n 13)
   || (Nat.leb 28 n && Nat.leb n 31))%bool.

Definition blank (s : string) : bool :=
  forallb is_space (list_ascii_of_string s).

(** A service whose answer to a payload does not depend on the calls made
    before. *)
Definition deterministic (out : outside) : Prop :=
  forall (h h' : list api_call) (call : api_call),
    chat_completions out h call = chat_completions out h' call.

(** The remote call, or the handling of its response, raises [e]: the
    service raises it, or it answers without any choice and indexing the
    empty list raises. *)
Definition remote_failure (out : outside) (h : list api_call)
    (call : api_call) (e : exc) : Prop :=
  chat_completions out h call = Raises e \/
  (exists r, chat_completions out h call = Returns r /\ choices r = []
             /\ e = mkExc IndexError "list index out of range").

(** ** Stubs for concrete runs *)

Definition test_environ (name : string) : option string :=
  if name =? "OPENAI_API_KEY" then Some "sk-test" else None.

Definition no_environ (name : string) : option string := None.

Definition completion_of (v : py_value) : ChatCompletion :=
  mkCompletion [mkChoice (mkMessage v)].

Definition hello_service (h : list api_call) (call : api_call)
    : remote_outcome :=
  Returns (completion_of (PyStr "Hello, adventurer.")).

Definition null_service (h : list api_call) (call : api_call)
    : remote_outcome :=
  Returns (completion_of PyNone).

Definition offline_service (h : list api_call) (call : api_call)
    : remote_outcome :=
  Raises (mkExc APIConnectionError "Connection error.").

Definition hello_submission : outside :=
  mkOutside test_environ "歴史学者" "How are you?" true hello_service.

Definition null_submission : outside :=
  mkOutside test_environ "歴史学者" "How are you?" true null_service.

Definition offline_submission : outside :=
  mkOutside test_environ "歴史学者" "How are you?" true offline_service.

Definition empty_submission : outside :=
  mkOutside test_environ "歴史学者" EmptyString true hello_service.

Definition space_submission : outside :=
  mkOutside test_environ "歴史学者" " " true hello_service.

Definition keyless_start : outside :=
  mkOutside no_environ "歴史学者" "How are you?" true hello_service.

Definition interrupted_service (h : list api_call) (call : api_call)
    : remote_outcome :=
  Raises (mkExc KeyboardInterrupt EmptyString).

(** A service that answers its first call and is unreachable afterwards. *)
Definition once_service (h : list api_call) (call : api_call)
    : remote_outcome :=
  match h with
  | [] => hello_service h call
  | _ :: _ => offline_service h call
  end.

Definition interrupted_submission : outside :=
  mkOutside test_environ "歴史学者" "How are you?" true interrupted_service.

Definition once_submission : outside :=
  mkOutside test_environ "歴史学者" "How are you?" true once_service.

Definition unknown_selection : outside :=
  mkOutside test_environ "宇宙飛行士" "How are you?" true hello_service.

(** The client bound and the catalog defined, nothing on the page yet. *)
Definition ready_world : world :=
  {| globals := {| var_client := Some (mkOpenAI "sk-test");
                   var_expert_roles := Some expert_roles |};
     trace := [] |}.

Definition historian_instruction : string :=
  "あなたは歴史学者です。世界史、日本史、文化史など幅広い歴史的知識を持ち、客観的な事実に基づいた深い洞察と解説を提供します。".

(** ** The shapes a run can take *)

(** The world [w] with the effects [d] added to its trace. *)
Definition extend (w : world) (d : list effect) : world :=
  {| globals := globals w; trace := (trace w ++ d)%list |}.

(** The environment holds the non-empty key [k]. *)
Definition usable_key (out : outside) (k : string) : Prop :=
  os_environ out "OPENAI_API_KEY" = Some k /\ k <> EmptyString.

(** The call the button handler makes for the instruction [i]: the client
    built from [k], the question as typed. *)
Definition handler_call (out : outside) (k i : string) : api_call :=
  (mkOpenAI k, request_payload (text_area_return out) i).

(** Every way lines 8-104 can go, with the outcome and the world each one
    ends in. *)
Inductive run_shape (out : outside) : outcome unit * world -> Prop :=
| Halted :
    os_environ out "OPENAI_API_KEY" = None \/
    os_environ out "OPENAI_API_KEY" = Some EmptyString ->
    run_shape out (Raised (mkExc StopException EmptyString), halted_world)
| Idle (k : string) :
    usable_key out k ->
    button_return out = false ->
    run_shape out (Normal tt, form_world k)
| Refused (k : string) :
    usable_key out k ->
    button_return out = true ->
    text_area_return out = EmptyString ->
    run_shape out
      (Normal tt, extend (form_world k) [StWarning "質問を入力してください。"])
| UnknownPersona (k : string) :
    usable_key out k ->
    button_return out = true ->
    text_area_return out <> EmptyString ->
    dict_get expert_roles (radio_return out) = None ->
    run_shape out
      (Raised (mkExc KeyError (repr (radio_return out))),
       extend (form_world k)
         [StSpinnerEnter "専門家が回答を考えています..."; StSpinnerExit])
| Answered (k i : string) (r : ChatCompletion) (ch : Choice)
    (rest : list Choice) :
    usable_key out k ->
    button_return out = true ->
    text_area_return out <> EmptyString ->
    dict_get expert_roles (radio_return out) = Some i ->
    chat_completions out [] (handler_call out k i) = Returns r ->
    choices r = ch :: rest ->
    run_shape out
      (Normal tt,
       extend (form_world k)
         [StSpinnerEnter "専門家が回答を考えています...";
          ChatCompletionsCreate (handler_call out k i);
          StSubheader (subheader_of (radio_return out));
          StWrite (content (message ch));
          StSpinnerExit])
| Failed (k i : string) (e : exc) :
    usable_key out k ->
    button_return out = true ->
    text_area_return out <> EmptyString ->
    dict_get expert_roles (radio_return out) = Some i ->
    remote_failure out [] (handler_call out k i) e ->
    isinstance e Exception = true ->
    run_shape out
      (Normal tt,
       extend (form_world k)
         [StSpinnerEnter "専門家が回答を考えています...";
          ChatCompletionsCreate (handler_call out k i);
          StError (error_report e);
          StSubheader (subheader_of (radio_return out));
          StWrite (PyStr failure_message);
          StSpinnerExit])
| Interrupted (k i : string) (e : exc) :
    usable_key out k ->
    button_return out = true ->
    text_area_return out <> EmptyString ->
    dict_get expert_roles (radio_return out) = Some i ->
    chat_completions out [] (handler_call out k i) = Raises e ->
    isinstance e Exception = false ->
    run_shape out
      (Raised e,
       extend (form_world k)
         [StSpinnerEnter "専門家が回答を考えています...";
          ChatCompletionsCreate (handler_call out k i);
          StSpinnerExit]).

(** More stubs: a visit without pressing the button, and a start with the
    variable set to the empty string. *)
Definition empty_key_environ (name : string) : option string :=
  if name =? "OPENAI_API_KEY" then Some EmptyString else None.

Definition idle_visit : outside :=
  mkOutside test_environ "歴史学者" "How are you?" false hello_service.

Definition empty_key_start : outside :=
  mkOutside empty_key_environ "歴史学者" "How are you?" true hello_service.

(** * Properties *)

(** ** Exceptions *)

Lemma LookupError_is_Exception (e : exc) :
  isinstance e LookupError = true -> isinstance e Exception = true.
Proof.
  destruct e as [c s]; unfold isinstance; simpl.
  destruct c; vm_compute; congruence.
Qed.

Lemma StopException_not_Exception :
  issubclass StopException Exception = false.
Proof. reflexivity. Qed.

Example repr_plain : repr "歴史学者" = "'歴史学者'".
Proof. reflexivity. Qed.

Example repr_control :
  repr (String (ascii_of_nat 1) "a\b") = "'\x01a\\b'".
Proof. reflexivity. Qed.

Example repr_apostrophe :
  repr "it's" = String double_quote ("it's" ++ String double_quote EmptyString).
Proof. reflexivity. Qed.

(** ** Dictionaries *)

Lemma dict_get_None_iff (d : dict) (k : string) :
  dict_get d k = None <-> ~ In k (dict_keys d).
Proof.
  induction d as [|[k' v] t IH]; simpl.
  - tauto.
  - destruct (String.eqb_spec k' k) as [->|Hne].
    + split; [discriminate | intros H; exfalso; apply H; now left].
    + rewrite IH. split.
      * intros H [Heq|Hin]; [congruence | tauto].
      * tauto.
Qed.

(** ** The trace *)

Lemma calls_of_app (t1 t2 : list effect) :
  calls_of (t1 ++ t2)%list = (calls_of t1 ++ calls_of t2)%list.
Proof.
  induction t1 as [|e t1 IH]; simpl; [reflexivity|].
  destruct e; simpl; now rewrite ?IH.
Qed.

Lemma calls_of_log_ui (e : effect) (w : world) :
  is_ui e = true -> calls_of (trace (log e w)) = calls_of (trace w).
Proof.
  intros H. unfold log; simpl. rewrite calls_of_app.
  destruct e; simpl in *; try discriminate; now rewrite app_nil_r.
Qed.

(** ** The completion function, case by case *)

Lemma get_llm_response_try_eq (out : outside) (q i : string) (w : world) :
  get_llm_response_try out q i w =
  match var_client (globals w) with
  | None => (Raised (name_error "client"), w)
  | Some c =>
      let w' := log (ChatCompletionsCreate (c, request_payload q i)) w in
      match chat_completions out (calls_of (trace w))
              (c, request_payload q i) with
      | Raises e => (Raised e, w')
      | Returns r =>
          match choices r with
          | [] => (Raised (mkExc IndexError "list index out of range"), w')
          | ch :: _ => (Normal (content (message ch)), w')
          end
      end
  end.
Proof.
  unfold get_llm_response_try, chat_completions_create, bind, get_client.
  destruct (var_client (globals w)) as [c|]; [|reflexivity].
  cbv zeta.
  destruct (chat_completions out (calls_of (trace w)) (c, request_payload q i))
    as [r|e]; [|reflexivity].
  unfold list_getitem_0. destruct (choices r); reflexivity.
Qed.

Lemma get_llm_response_eq (out : outside) (q i : string) (w : world) :
  get_llm_response out q i w =
  match get_llm_response_try out q i w with
  | (Normal v, w') => (Normal v, w')
  | (Raised e, w') =>
      if isinstance e Exception
      then (Normal (PyStr failure_message), log (StError (error_report e)) w')
      else (Raised e, w')
  end.
Proof.
  unfold get_llm_response, try_except.
  destruct (get_llm_response_try out q i w) as [[v|e] w']; [reflexivity|].
  destruct (isinstance e Exception); reflexivity.
Qed.

(** ** The script, case by case *)

Lemma run_eq (out : outside) :
  run out =
  match os_environ out "OPENAI_API_KEY" with
  | None => (Raised (mkExc StopException EmptyString), halted_world)
  | Some k =>
      if k =? EmptyString
      then (Raised (mkExc StopException EmptyString), halted_world)
      else if button_return out
           then on_submit out (radio_return out) (text_area_return out)
                  (form_world k)
           else (Normal tt, form_world k)
  end.
Proof.
  unfold run, app, bind, load_dotenv, os_getenv, ret.
  destruct (os_environ out "OPENAI_API_KEY") as [k|] eqn:Hk; [|reflexivity].
  unfold truthy. destruct (k =? EmptyString); [reflexivity|].
  cbn -[on_submit expert_roles intro_markdown].
  destruct (button_return out); reflexivity.
Qed.

Lemma on_submit_eq (out : outside) (sel q i : string) (w : world) :
  q <> EmptyString ->
  var_expert_roles (globals w) = Some expert_roles ->
  dict_get expert_roles sel = Some i ->
  on_submit out sel q w =
  match get_llm_response out q i
          (log (StSpinnerEnter "専門家が回答を考えています...") w) with
  | (Normal v, w') =>
      (Normal tt,
       log StSpinnerExit
         (log (StWrite v) (log (StSubheader (subheader_of sel)) w')))
  | (Raised e, w') => (Raised e, log StSpinnerExit w')
  end.
Proof.
  intros Hq Hroles Hsel.
  unfold on_submit, truthy.
  destruct (String.eqb_spec q EmptyString) as [|_]; [contradiction|].
  cbn [negb].
  unfold with_st_spinner, bind, emit, get_expert_roles.
  cbn [globals log]. rewrite Hroles.
  unfold dict_getitem. rewrite Hsel. unfold ret at 1.
  destruct (get_llm_response out q i _) as [[v|e] w']; reflexivity.
Qed.

(** ** Validation of the question (C1) *)

(** C1, as amended: for every submission (the key is set and the button is
    pressed) whose question text is the empty string, the run ends normally,
    the page is the form followed by the validation warning, and no call
    went out, so the completion function was not invoked. *)
Theorem empty_question_is_refused (out : outside) (k : string) :
  os_environ out "OPENAI_API_KEY" = Some k ->
  k <> EmptyString ->
  button_return out = true ->
  text_area_return out = EmptyString ->
  fst (run out) = Normal tt /\
  trace (snd (run out)) =
    (page_form ++ [StWarning "質問を入力してください。"])%list /\
  calls_of (trace (snd (run out))) = [].
Proof.
  intros Hk Hne Hb Hq.
  rewrite run_eq, Hk.
  destruct (String.eqb_spec k EmptyString) as [|_]; [contradiction|].
  rewrite Hb, Hq. cbn. repeat split; reflexivity.
Qed.

Lemma empty_question_is_refused_witness :
  fst (run empty_submission) = Normal tt /\
  trace (snd (run empty_submission)) =
    (page_form ++ [StWarning "質問を入力してください。"])%list /\
  calls_of (trace (snd (run empty_submission))) = [].
Proof.
  apply (empty_question_is_refused empty_submission "sk-test").
  - reflexivity.
  - discriminate.
  - reflexivity.
  - reflexivity.
Defined.

(** C1, as stated, fails: a question of one space is blank, yet the
    submission sends it to the service with the historian's instruction
    and shows no warning. *)
Lemma space_question_is_sent :
  blank (text_area_return space_submission) = true /\
  button_return space_submission = true /\
  calls_of (trace (snd (run space_submission))) =
    [(mkOpenAI "sk-test", request_payload " " historian_instruction)] /\
  existsb is_warning (trace (snd (run space_submission))) = false.
Proof. repeat split; reflexivity. Qed.

(** ** Startup without a credential (C6) *)

(** C6: when OPENAI_API_KEY is absent from the environment, the run stops
    right after the error box: the page holds no selector, text box or
    button, no call went out, and no client was created. *)
Theorem missing_key_halts (out : outside) :
  os_environ out "OPENAI_API_KEY" = None ->
  run out = (Raised (mkExc StopException EmptyString), halted_world) /\
  trace halted_world = [StError missing_key_message] /\
  existsb is_form_element (trace (snd (run out))) = false /\
  calls_of (trace (snd (run out))) = [] /\
  var_client (globals (snd (run out))) = None.
Proof.
  intros Hk. rewrite run_eq, Hk. repeat split; reflexivity.
Qed.

Lemma missing_key_halts_witness :
  run keyless_start = (Raised (mkExc StopException EmptyString), halted_world) /\
  trace halted_world = [StError missing_key_message] /\
  existsb is_form_element (trace (snd (run keyless_start))) = false /\
  calls_of (trace (snd (run keyless_start))) = [] /\
  var_client (globals (snd (run keyless_start))) = None.
Proof. apply (missing_key_halts keyless_start). reflexivity. Defined.

(** An empty key is treated as a missing one. *)
Lemma empty_key_halts (out : outside) :
  os_environ out "OPENAI_API_KEY" = Some EmptyString ->
  run out = (Raised (mkExc StopException EmptyString), halted_world).
Proof. intros Hk. rewrite run_eq, Hk. reflexivity. Qed.

(** ** What one call of the completion function does to the world *)

Lemma get_llm_response_effects (out : outside) (q i : string) (w : world) :
  exists d : list effect,
    snd (get_llm_response out q i w) =
      {| globals := globals w; trace := (trace w ++ d)%list |} /\
    calls_of d =
      match var_client (globals w) with
      | Some c => [(c, request_payload q i)]
      | None => []
      end /\
    filter is_ui d =
      match fst (get_llm_response_try out q i w) with
      | Normal _ => []
      | Raised e =>
          if isinstance e Exception then [StError (error_report e)] else []
      end /\
    existsb is_form_element d = false.
Proof.
  rewrite get_llm_response_eq, get_llm_response_try_eq.
  destruct (var_client (globals w)) as [c|].
  - cbv zeta.
    destruct (chat_completions out (calls_of (trace w)) (c, request_payload q i))
      as [r|e].
    + destruct (choices r) as [|ch rest].
      * exists [ChatCompletionsCreate (c, request_payload q i);
                StError (error_report (mkExc IndexError "list index out of range"))].
        unfold log; cbn [fst snd globals trace isinstance]. rewrite <- app_assoc.
        repeat split; reflexivity.
      * exists [ChatCompletionsCreate (c, request_payload q i)].
        repeat split; reflexivity.
    + cbn [fst]. destruct (isinstance e Exception).
      * exists [ChatCompletionsCreate (c, request_payload q i);
                StError (error_report e)].
        unfold log; cbn [snd globals trace]. rewrite <- app_assoc.
        repeat split; reflexivity.
      * exists [ChatCompletionsCreate (c, request_payload q i)].
        repeat split; reflexivity.
  - exists [StError (error_report (name_error "client"))].
    repeat split; reflexivity.
Qed.

Lemma get_llm_response_raises (out : outside) (q i : string) (w : world)
    (e : exc) :
  fst (get_llm_response out q i w) = Raised e ->
  isinstance e Exception = false.
Proof.
  rewrite get_llm_response_eq.
  destruct (get_llm_response_try out q i w) as [[v|e'] w']; [discriminate|].
  destruct (isinstance e' Exception) eqn:He; [discriminate|].
  cbn. intros H. injection H as <-. exact He.
Qed.

(** The handler only adds to the page, and adds no form element. *)
Lemma on_submit_effects (out : outside) (sel q : string) (w : world) :
  exists d : list effect,
    trace (snd (on_submit out sel q w)) = (trace w ++ d)%list /\
    existsb is_form_element d = false.
Proof.
  unfold on_submit. destruct (truthy (PyStr q)).
  - unfold with_st_spinner, bind, emit, get_expert_roles.
    cbn [globals log].
    destruct (var_expert_roles (globals w)) as [roles|].
    + unfold dict_getitem. destruct (dict_get roles sel) as [i|].
      * unfold ret at 1.
        destruct (get_llm_response_effects out q i
                    {| globals := globals w;
                       trace := (trace w ++ [StSpinnerEnter "専門家が回答を考えています..."])%list |})
          as (d & Hw & _ & _ & Hd).
        destruct (get_llm_response out q i _) as [[v|e] w'] eqn:Hg;
          cbn [snd] in Hw; subst w'; cbn [globals trace] in *.
        -- exists ([StSpinnerEnter "専門家が回答を考えています..."] ++ d
                  ++ [StSubheader (subheader_of sel); StWrite v; StSpinnerExit])%list.
           split.
           ++ cbn. rewrite <- !app_assoc. reflexivity.
           ++ rewrite !existsb_app, Hd. reflexivity.
        -- exists ([StSpinnerEnter "専門家が回答を考えています..."] ++ d
                  ++ [StSpinnerExit])%list.
           split.
           ++ cbn. rewrite <- !app_assoc. reflexivity.
           ++ rewrite !existsb_app, Hd. reflexivity.
      * exists [StSpinnerEnter "専門家が回答を考えています..."; StSpinnerExit].
        cbn. rewrite <- app_assoc. split; reflexivity.
    + exists [StSpinnerEnter "専門家が回答を考えています..."; StSpinnerExit].
      cbn. rewrite <- app_assoc. split; reflexivity.
  - exists [StWarning "質問を入力してください。"]. split; reflexivity.
Qed.

(** With a usable key the form is always drawn, once, before anything
    else a submission adds. *)
Lemma run_draws_form (out : outside) (k : string) :
  os_environ out "OPENAI_API_KEY" = Some k ->
  k <> EmptyString ->
  exists d : list effect,
    trace (snd (run out)) = (page_form ++ d)%list /\
    existsb is_form_element d = false.
Proof.
  intros Hk Hne. rewrite run_eq, Hk.
  destruct (String.eqb_spec k EmptyString) as [|_]; [contradiction|].
  destruct (button_return out).
  - apply (on_submit_effects out _ _ (form_world k)).
  - exists []. split; reflexivity.
Qed.

(** ** The request payload (C3) *)

(** C3: a call of [get_llm_response] with question [q] and instruction [i]
    sends one request through the bound client, and its payload holds
    exactly two messages, the system-role one with content [i] before the
    user-role one with content [q], with model gpt-3.5-turbo, temperature
    0.7 and at most 500 generated tokens. *)
Theorem request_has_two_messages (out : outside) (q i : string) (w : world) :
  calls_of (trace (snd (get_llm_response out q i w))) =
    (calls_of (trace w) ++
     match var_client (globals w) with
     | Some c => [(c, request_payload q i)]
     | None => []
     end)%list /\
  messages (request_payload q i) =
    [[("role", "system"); ("content", i)];
     [("role", "user"); ("content", q)]] /\
  model (request_payload q i) = "gpt-3.5-turbo" /\
  temperature (request_payload q i) = 0.7%float /\
  max_tokens (request_payload q i) = 500.
Proof.
  destruct (get_llm_response_effects out q i w) as (d & Hw & Hcalls & _).
  rewrite Hw. cbn [trace]. rewrite calls_of_app, Hcalls.
  repeat split; reflexivity.
Qed.

(** ** The persona catalog (C4, C7) *)

(** C4: the catalog holds exactly four personas; its keys, in insertion
    order, are the options the radio selector is drawn with; and looking up
    each of the four names gives a non-empty instruction. *)
Theorem catalog_has_four_personas :
  length expert_roles = 4 /\
  dict_keys expert_roles =
    ["ITコンサルタント"; "料理研究家"; "歴史学者"; "キャリアアドバイザー"] /\
  NoDup (dict_keys expert_roles) /\
  Forall (fun name =>
            exists s, s <> EmptyString /\
                      forall w, dict_getitem expert_roles name w = (Normal s, w))
         (dict_keys expert_roles) /\
  (forall (out : outside) (k : string),
      os_environ out "OPENAI_API_KEY" = Some k ->
      k <> EmptyString ->
      In (StRadio "回答してほしい専門家を選択してください:"
            ["ITコンサルタント"; "料理研究家"; "歴史学者"; "キャリアアドバイザー"] 0)
         (trace (snd (run out)))).
Proof.
  split; [reflexivity|]. split; [reflexivity|]. split.
  { repeat constructor; cbn; intuition discriminate. }
  split.
  { repeat constructor; eexists; (split; [|intros w; reflexivity]); discriminate. }
  intros out k Hk Hne.
  destruct (run_draws_form out k Hk Hne) as (d & Ht & _).
  rewrite Ht. apply in_or_app. left. cbn. tauto.
Qed.

Lemma catalog_has_four_personas_witness :
  In (StRadio "回答してほしい専門家を選択してください:"
        ["ITコンサルタント"; "料理研究家"; "歴史学者"; "キャリアアドバイザー"] 0)
     (trace (snd (run hello_submission))).
Proof.
  apply (proj2 (proj2 (proj2 (proj2 catalog_has_four_personas)))
           hello_submission "sk-test").
  - reflexivity.
  - discriminate.
Defined.

Lemma run_radio_options (out : outside) (label : string)
    (options : list string) (index : nat) :
  In (StRadio label options index) (trace (snd (run out))) ->
  options = dict_keys expert_roles.
Proof.
  intros Hin. rewrite run_eq in Hin.
  assert (Hform : forall d, existsb is_form_element d = false ->
                       In (StRadio label options index) (page_form ++ d)%list ->
                       options = dict_keys expert_roles).
  { intros d Hd H. apply in_app_or in H. destruct H as [H|H].
    - cbn in H.
      destruct H as [H|[H|[H|[H|[H|[H|[]]]]]]]; try discriminate.
      injection H as _ <- _. reflexivity.
    - exfalso. assert (Hex : existsb is_form_element d = true).
      { apply existsb_exists. eexists; split; [exact H | reflexivity]. }
      congruence. }
  destruct (os_environ out "OPENAI_API_KEY") as [k|].
  - destruct (k =? EmptyString).
    + cbn in Hin. intuition discriminate.
    + destruct (button_return out).
      * destruct (on_submit_effects out (radio_return out)
                    (text_area_return out) (form_world k)) as (d & Ht & Hd).
        rewrite Ht in Hin. exact (Hform d Hd Hin).
      * apply (Hform [] eq_refl). now rewrite app_nil_r.
  - cbn in Hin. intuition discriminate.
Qed.

(** C7: looking up a name that is not a key of the catalog raises a
    KeyError, which is a LookupError; every name among the options of the
    selector the run has drawn is found; and when the selector returns one of
    the catalog's names, no exception that leaves the run is a LookupError. *)
Theorem unknown_persona_is_a_lookup_error (out : outside) (name : string) :
  (~ In name (dict_keys expert_roles) ->
   forall w, dict_getitem expert_roles name w =
               (Raised (mkExc KeyError (repr name)), w) /\
             isinstance (mkExc KeyError (repr name)) LookupError = true) /\
  (forall label options index,
      In (StRadio label options index) (trace (snd (run out))) ->
      In name options ->
      exists s, forall w, dict_getitem expert_roles name w = (Normal s, w)) /\
  (In (radio_return out) (dict_keys expert_roles) ->
   forall e, fst (run out) = Raised e -> isinstance e LookupError = false).
Proof.
  split; [|split].
  - intros Hout w. apply dict_get_None_iff in Hout.
    unfold dict_getitem. rewrite Hout. split; reflexivity.
  - intros label options index Hradio Hin.
    rewrite (run_radio_options out label options index Hradio) in Hin.
    destruct (dict_get expert_roles name) as [s|] eqn:Hs.
    + exists s. intros w. unfold dict_getitem. now rewrite Hs.
    + apply dict_get_None_iff in Hs. contradiction.
  - intros Hsel e Hrun.
    destruct (isinstance e LookupError) eqn:Hl; [|reflexivity].
    apply LookupError_is_Exception in Hl.
    rewrite run_eq in Hrun.
    destruct (os_environ out "OPENAI_API_KEY") as [k|].
    + destruct (k =? EmptyString).
      * cbn in Hrun. injection Hrun as <-. discriminate.
      * destruct (button_return out); [|discriminate].
        destruct (dict_get expert_roles (radio_return out)) as [i|] eqn:Hi.
        -- destruct (String.eqb_spec (text_area_return out) EmptyString)
             as [Hq|Hq].
           ++ unfold on_submit in Hrun. rewrite Hq in Hrun. discriminate.
           ++ rewrite (on_submit_eq out _ _ i (form_world k) Hq eq_refl Hi)
                in Hrun.
              destruct (get_llm_response out (text_area_return out) i _)
                as [[v|e'] w'] eqn:Hg; [discriminate|].
              cbn in Hrun. injection Hrun as ->.
              pose proof (get_llm_response_raises out _ _ _ e
                            (f_equal fst Hg)) as Hne.
              congruence.
        -- apply dict_get_None_iff in Hi. contradiction.
    + cbn in Hrun. injection Hrun as <-. discriminate.
Qed.

Lemma unknown_persona_is_a_lookup_error_witness :
  (dict_getitem expert_roles "宇宙飛行士" ready_world =
     (Raised (mkExc KeyError "'宇宙飛行士'"), ready_world) /\
   isinstance (mkExc KeyError "'宇宙飛行士'") LookupError = true) /\
  (exists s, forall w, dict_getitem expert_roles "歴史学者" w = (Normal s, w)) /\
  (forall e, fst (run interrupted_submission) = Raised e ->
             isinstance e LookupError = false).
Proof.
  split; [|split].
  - apply (proj1 (unknown_persona_is_a_lookup_error hello_submission "宇宙飛行士")).
    cbn. intuition discriminate.
  - apply (proj1 (proj2 (unknown_persona_is_a_lookup_error
                           hello_submission "歴史学者"))
             "回答してほしい専門家を選択してください:"
             (dict_keys expert_roles) 0).
    + cbn. tauto.
    + cbn. tauto.
  - apply (proj2 (proj2 (unknown_persona_is_a_lookup_error
                           interrupted_submission "歴史学者"))).
    cbn. tauto.
Defined.

(** Outside the selector's contract the lookup error does leave the run,
    after the spinner is taken down and before any call. *)
Example unknown_selection_raises :
  fst (run unknown_selection) = Raised (mkExc KeyError "'宇宙飛行士'") /\
  trace (snd (run unknown_selection)) =
    (page_form ++ [StSpinnerEnter "専門家が回答を考えています..."; StSpinnerExit])%list.
Proof. split; reflexivity. Qed.

(** An exception that is not an [Exception] is not caught and ends the run. *)
Example interrupt_leaves_the_run :
  fst (run interrupted_submission) = Raised (mkExc KeyboardInterrupt EmptyString).
Proof. reflexivity. Qed.

(** ** The result of the completion function (C2, C5, C8, C10) *)

(** What a call returns, read off the client binding and the service. *)
Lemma get_llm_response_result (out : outside) (q i : string) (w : world) :
  fst (get_llm_response out q i w) =
  match var_client (globals w) with
  | None => Normal (PyStr failure_message)
  | Some c =>
      match chat_completions out (calls_of (trace w))
              (c, request_payload q i) with
      | Raises e =>
          if isinstance e Exception
          then Normal (PyStr failure_message)
          else Raised e
      | Returns r =>
          match choices r with
          | [] => Normal (PyStr failure_message)
          | ch :: _ => Normal (content (message ch))
          end
      end
  end.
Proof.
  rewrite get_llm_response_eq, get_llm_response_try_eq.
  destruct (var_client (globals w)) as [c|]; [|reflexivity].
  cbv zeta.
  destruct (chat_completions out (calls_of (trace w)) (c, request_payload q i))
    as [r|e].
  - destruct (choices r); reflexivity.
  - destruct (isinstance e Exception); reflexivity.
Qed.

Lemma remote_failure_raises (out : outside) (q i : string) (w : world)
    (c : OpenAI) (e : exc) :
  var_client (globals w) = Some c ->
  remote_failure out (calls_of (trace w)) (c, request_payload q i) e ->
  get_llm_response_try out q i w =
    (Raised e, log (ChatCompletionsCreate (c, request_payload q i)) w).
Proof.
  intros Hc Hfail. rewrite get_llm_response_try_eq, Hc. cbv zeta.
  destruct Hfail as [Hr|(r & Hr & Hch & ->)]; rewrite Hr.
  - reflexivity.
  - now rewrite Hch.
Qed.

(** C2: when the remote call raises an [Exception] [e], or the response
    has no choice to index, [get_llm_response] returns the fixed failure
    string after reporting [e] on the page, and nothing propagates; the
    button handler then goes on to render that string and ends normally. *)
Theorem remote_errors_are_caught (out : outside) (q i : string) (w : world)
    (c : OpenAI) (e : exc) :
  var_client (globals w) = Some c ->
  remote_failure out (calls_of (trace w)) (c, request_payload q i) e ->
  isinstance e Exception = true ->
  get_llm_response out q i w =
    (Normal (PyStr failure_message),
     log (StError (error_report e))
       (log (ChatCompletionsCreate (c, request_payload q i)) w)) /\
  forall sel : string,
    q <> EmptyString ->
    var_expert_roles (globals w) = Some expert_roles ->
    dict_get expert_roles sel = Some i ->
    on_submit out sel q w =
      (Normal tt,
       {| globals := globals w;
          trace := (trace w ++
                    [StSpinnerEnter "専門家が回答を考えています...";
                     ChatCompletionsCreate (c, request_payload q i);
                     StError (error_report e);
                     StSubheader (subheader_of sel);
                     StWrite (PyStr failure_message);
                     StSpinnerExit])%list |}).
Proof.
  intros Hc Hfail He.
  assert (Hget : forall w0, var_client (globals w0) = Some c ->
            calls_of (trace w0) = calls_of (trace w) ->
            get_llm_response out q i w0 =
              (Normal (PyStr failure_message),
               log (StError (error_report e))
                 (log (ChatCompletionsCreate (c, request_payload q i)) w0))).
  { intros w0 Hc0 Hh. rewrite get_llm_response_eq.
    rewrite (remote_failure_raises out q i w0 c e Hc0).
    - now rewrite He.
    - now rewrite Hh. }
  split.
  - apply Hget; [exact Hc | reflexivity].
  - intros sel Hq Hroles Hsel.
    rewrite (on_submit_eq out sel q i w Hq Hroles Hsel).
    rewrite Hget.
    + unfold log; cbn [globals trace]. rewrite <- !app_assoc. reflexivity.
    + exact Hc.
    + apply calls_of_log_ui. reflexivity.
Qed.

Lemma remote_errors_are_caught_witness :
  get_llm_response offline_submission "How are you?" historian_instruction
    (form_world "sk-test") =
    (Normal (PyStr failure_message),
     log (StError (error_report (mkExc APIConnectionError "Connection error.")))
       (log (ChatCompletionsCreate
               (mkOpenAI "sk-test",
                request_payload "How are you?" historian_instruction))
          (form_world "sk-test"))) /\
  on_submit offline_submission "歴史学者" "How are you?" (form_world "sk-test") =
    (Normal tt,
     {| globals := globals (form_world "sk-test");
        trace := (trace (form_world "sk-test") ++
                  [StSpinnerEnter "専門家が回答を考えています...";
                   ChatCompletionsCreate
                     (mkOpenAI "sk-test",
                      request_payload "How are you?" historian_instruction);
                   StError (error_report
                              (mkExc APIConnectionError "Connection error."));
                   StSubheader (subheader_of "歴史学者");
                   StWrite (PyStr failure_message);
                   StSpinnerExit])%list |}).
Proof.
  destruct (remote_errors_are_caught offline_submission "How are you?"
              historian_instruction (form_world "sk-test") (mkOpenAI "sk-test")
              (mkExc APIConnectionError "Connection error.")
              eq_refl (or_introl eq_refl) eq_refl) as [Hget Hsubmit].
  split.
  - exact Hget.
  - apply Hsubmit.
    + discriminate.
    + reflexivity.
    + reflexivity.
Defined.

(** The whole run against the unreachable service: it ends normally with
    the error box and the failure string on the page. *)
Example offline_run :
  run offline_submission =
    (Normal tt,
     {| globals := globals (form_world "sk-test");
        trace := (page_form ++
                  [StSpinnerEnter "専門家が回答を考えています...";
                   ChatCompletionsCreate
                     (mkOpenAI "sk-test",
                      request_payload "How are you?" historian_instruction);
                   StError "LLMからの回答取得中にエラーが発生しました: Connection error.";
                   StSubheader "✨ 歴史学者からの回答:";
                   StWrite (PyStr "回答の取得に失敗しました。");
                   StSpinnerExit])%list |}).
Proof. reflexivity. Qed.

(** A response without choices takes the same path. *)
Example empty_choices_run :
  get_llm_response
    (mkOutside test_environ "歴史学者" "How are you?" true
       (fun _ _ => Returns (mkCompletion [])))
    "How are you?" historian_instruction ready_world =
    (Normal (PyStr "回答の取得に失敗しました。"),
     {| globals := globals ready_world;
        trace := [ChatCompletionsCreate
                    (mkOpenAI "sk-test",
                     request_payload "How are you?" historian_instruction);
                  StError "LLMからの回答取得中にエラーが発生しました: list index out of range"] |}).
Proof. reflexivity. Qed.

(** C5: when the service answers and the response has a first choice,
    [get_llm_response] returns the content of that choice's message, and
    the button handler renders exactly that value under the subheader that
    names the selected persona. *)
Theorem first_choice_is_rendered (out : outside) (q i : string) (w : world)
    (c : OpenAI) (r : ChatCompletion) (ch : Choice) (rest : list Choice) :
  var_client (globals w) = Some c ->
  chat_completions out (calls_of (trace w)) (c, request_payload q i) =
    Returns r ->
  choices r = ch :: rest ->
  get_llm_response out q i w =
    (Normal (content (message ch)),
     log (ChatCompletionsCreate (c, request_payload q i)) w) /\
  forall sel : string,
    q <> EmptyString ->
    var_expert_roles (globals w) = Some expert_roles ->
    dict_get expert_roles sel = Some i ->
    on_submit out sel q w =
      (Normal tt,
       {| globals := globals w;
          trace := (trace w ++
                    [StSpinnerEnter "専門家が回答を考えています...";
                     ChatCompletionsCreate (c, request_payload q i);
                     StSubheader ("✨ " ++ sel ++ "からの回答:");
                     StWrite (content (message ch));
                     StSpinnerExit])%list |}).
Proof.
  intros Hc Hr Hch.
  assert (Hget : forall w0, var_client (globals w0) = Some c ->
            calls_of (trace w0) = calls_of (trace w) ->
            get_llm_response out q i w0 =
              (Normal (content (message ch)),
               log (ChatCompletionsCreate (c, request_payload q i)) w0)).
  { intros w0 Hc0 Hh.
    rewrite get_llm_response_eq, get_llm_response_try_eq, Hc0, Hh. cbv zeta.
    now rewrite Hr, Hch. }
  split.
  - apply Hget; [exact Hc | reflexivity].
  - intros sel Hq Hroles Hsel.
    rewrite (on_submit_eq out sel q i w Hq Hroles Hsel).
    rewrite Hget.
    + unfold log, subheader_of; cbn [globals trace].
      rewrite <- !app_assoc. reflexivity.
    + exact Hc.
    + apply calls_of_log_ui. reflexivity.
Qed.

Lemma first_choice_is_rendered_witness :
  get_llm_response hello_submission "How are you?" historian_instruction
    (form_world "sk-test") =
    (Normal (PyStr "Hello, adventurer."),
     log (ChatCompletionsCreate
            (mkOpenAI "sk-test",
             request_payload "How are you?" historian_instruction))
       (form_world "sk-test")) /\
  on_submit hello_submission "歴史学者" "How are you?" (form_world "sk-test") =
    (Normal tt,
     {| globals := globals (form_world "sk-test");
        trace := (trace (form_world "sk-test") ++
                  [StSpinnerEnter "専門家が回答を考えています...";
                   ChatCompletionsCreate
                     (mkOpenAI "sk-test",
                      request_payload "How are you?" historian_instruction);
                   StSubheader ("✨ " ++ "歴史学者" ++ "からの回答:");
                   StWrite (PyStr "Hello, adventurer.");
                   StSpinnerExit])%list |}).
Proof.
  destruct (first_choice_is_rendered hello_submission "How are you?"
              historian_instruction (form_world "sk-test") (mkOpenAI "sk-test")
              (completion_of (PyStr "Hello, adventurer."))
              (mkChoice (mkMessage (PyStr "Hello, adventurer."))) []
              eq_refl eq_refl eq_refl) as [Hget Hsubmit].
  split.
  - exact Hget.
  - apply Hsubmit.
    + discriminate.
    + reflexivity.
    + reflexivity.
Defined.

(** The whole run for the historian and the question of the example. *)
Example hello_run :
  run hello_submission =
    (Normal tt,
     {| globals := globals (form_world "sk-test");
        trace := (page_form ++
                  [StSpinnerEnter "専門家が回答を考えています...";
                   ChatCompletionsCreate
                     (mkOpenAI "sk-test",
                      request_payload "How are you?" historian_instruction);
                   StSubheader "✨ 歴史学者からの回答:";
                   StWrite (PyStr "Hello, adventurer.");
                   StSpinnerExit])%list |}).
Proof. reflexivity. Qed.

(** C10: when the service answers with a first choice whose message
    content is [None], [get_llm_response] returns [None], which is not a
    string. *)
Theorem null_content_is_returned (out : outside) (q i : string) (w : world)
    (c : OpenAI) (r : ChatCompletion) (ch : Choice) (rest : list Choice) :
  var_client (globals w) = Some c ->
  chat_completions out (calls_of (trace w)) (c, request_payload q i) =
    Returns r ->
  choices r = ch :: rest ->
  content (message ch) = PyNone ->
  exists v : py_value,
    fst (get_llm_response out q i w) = Normal v /\ is_str v = false.
Proof.
  intros Hc Hr Hch Hnone. exists PyNone.
  rewrite get_llm_response_result, Hc, Hr, Hch, Hnone.
  split; reflexivity.
Qed.

Lemma null_content_is_returned_witness :
  exists v : py_value,
    fst (get_llm_response null_submission "How are you?" historian_instruction
           (form_world "sk-test")) = Normal v /\
    is_str v = false.
Proof.
  apply (null_content_is_returned null_submission "How are you?"
           historian_instruction (form_world "sk-test") (mkOpenAI "sk-test")
           (completion_of PyNone) (mkChoice (mkMessage PyNone)) []);
    reflexivity.
Defined.

(** The run then writes [None] under the persona's subheader. *)
Example null_run :
  fst (run null_submission) = Normal tt /\
  trace (snd (run null_submission)) =
    (page_form ++
     [StSpinnerEnter "専門家が回答を考えています...";
      ChatCompletionsCreate
        (mkOpenAI "sk-test",
         request_payload "How are you?" historian_instruction);
      StSubheader "✨ 歴史学者からの回答:";
      StWrite PyNone;
      StSpinnerExit])%list.
Proof. split; reflexivity. Qed.

(** ** No state carried between calls (C8) *)

(** Against a deterministic service the outcome of a call depends on the
    world only through the client binding. *)
Lemma get_llm_response_same_client (out : outside) (q i : string)
    (w1 w2 : world) :
  deterministic out ->
  var_client (globals w1) = var_client (globals w2) ->
  fst (get_llm_response out q i w1) = fst (get_llm_response out q i w2).
Proof.
  intros Hdet Hc. rewrite !get_llm_response_result, Hc.
  destruct (var_client (globals w2)) as [c|]; [|reflexivity].
  now rewrite (Hdet (calls_of (trace w1)) (calls_of (trace w2))).
Qed.

(** C8: against a deterministic service, a second call of
    [get_llm_response] with the same question and instruction, made in the
    world the first call left behind, has the same outcome as the first. *)
Theorem second_call_same_output (out : outside) (q i : string) (w : world) :
  deterministic out ->
  fst (get_llm_response out q i (snd (get_llm_response out q i w))) =
  fst (get_llm_response out q i w).
Proof.
  intros Hdet. apply get_llm_response_same_client; [exact Hdet|].
  destruct (get_llm_response_effects out q i w) as (d & Hw & _).
  now rewrite Hw.
Qed.

Lemma second_call_same_output_witness :
  fst (get_llm_response hello_submission "How are you?" historian_instruction
         (snd (get_llm_response hello_submission "How are you?"
                 historian_instruction ready_world))) =
  fst (get_llm_response hello_submission "How are you?" historian_instruction
         ready_world).
Proof.
  apply (second_call_same_output hello_submission).
  intros h h' call. reflexivity.
Defined.

(** The service may change its mind between calls; the function does not
    hide that: determinism of the service is what the claim rests on. *)
Example once_service_differs :
  fst (get_llm_response once_submission "How are you?" historian_instruction
         ready_world) = Normal (PyStr "Hello, adventurer.") /\
  fst (get_llm_response once_submission "How are you?" historian_instruction
         (snd (get_llm_response once_submission "How are you?"
                 historian_instruction ready_world))) =
    Normal (PyStr "回答の取得に失敗しました。").
Proof. split; reflexivity. Qed.

(** ** Side effects of the completion function (C9) *)

(** C9, as amended: a call of [get_llm_response] leaves the module globals
    as they were and adds to the trace at most the one outbound call; when
    the body of [try] returns, nothing is written to the page; when it
    raises an [Exception] [e], exactly one error box with the report of [e]
    is written. *)
Theorem get_llm_response_side_effects (out : outside) (q i : string)
    (w : world) :
  globals (snd (get_llm_response out q i w)) = globals w /\
  exists d : list effect,
    trace (snd (get_llm_response out q i w)) = (trace w ++ d)%list /\
    calls_of d =
      match var_client (globals w) with
      | Some c => [(c, request_payload q i)]
      | None => []
      end /\
    filter is_ui d =
      match fst (get_llm_response_try out q i w) with
      | Normal _ => []
      | Raised e =>
          if isinstance e Exception then [StError (error_report e)] else []
      end.
Proof.
  destruct (get_llm_response_effects out q i w) as (d & Hw & Hcalls & Hui & _).
  rewrite Hw. split; [reflexivity|].
  exists d. repeat split; assumption.
Qed.

(** C9, as stated, fails on the failure path: against the unreachable
    service the call writes an error box to the page. *)
Lemma failure_path_writes_error_box :
  trace (snd (get_llm_response offline_submission "How are you?"
                historian_instruction ready_world)) =
    [ChatCompletionsCreate
       (mkOpenAI "sk-test",
        request_payload "How are you?" historian_instruction);
     StError "LLMからの回答取得中にエラーが発生しました: Connection error."] /\
  filter is_ui
    (trace (snd (get_llm_response offline_submission "How are you?"
                   historian_instruction ready_world))) <> [].
Proof. split; [reflexivity | discriminate]. Qed.

(** * Further properties of the script *)

(** ** Every run, classified *)

Lemma run_shape_total (out : outside) : run_shape out (run out).
Proof.
  rewrite run_eq.
  destruct (os_environ out "OPENAI_API_KEY") as [k|] eqn:Hk;
    [|apply Halted; now left].
  destruct (String.eqb_spec k EmptyString) as [->|Hne];
    [apply Halted; now right|].
  assert (Hkey : usable_key out k) by (split; assumption).
  destruct (button_return out) eqn:Hb; [|now apply Idle].
  destruct (String.eqb_spec (text_area_return out) EmptyString) as [Hq|Hq].
  { unfold on_submit. rewrite Hq. now apply Refused. }
  destruct (dict_get expert_roles (radio_return out)) as [i|] eqn:Hi.
  - rewrite (on_submit_eq out _ _ i (form_world k) Hq eq_refl Hi).
    rewrite get_llm_response_eq, get_llm_response_try_eq.
    cbn [globals form_world var_client log trace]. cbv zeta.
    change (calls_of (page_form ++ [StSpinnerEnter "専門家が回答を考えています..."]))
      with (@nil api_call).
    fold (handler_call out k i).
    destruct (chat_completions out [] (handler_call out k i)) as [r|e] eqn:Hr.
    + destruct (choices r) as [|ch rest] eqn:Hch.
      * apply (Failed out k i (mkExc IndexError "list index out of range"));
          try assumption; [|reflexivity].
        right. exists r. repeat split; assumption.
      * now apply (Answered out k i r ch rest).
    + destruct (isinstance e Exception) eqn:He.
      * apply (Failed out k i e); try assumption. now left.
      * now apply (Interrupted out k i e).
  - unfold on_submit, truthy.
    destruct (String.eqb_spec (text_area_return out) EmptyString) as [|_];
      [contradiction|].
    cbn [negb]. unfold with_st_spinner, bind, emit, get_expert_roles.
    cbn [globals log form_world var_expert_roles].
    unfold dict_getitem. rewrite Hi.
    now apply (UnknownPersona out k).
Qed.

Lemma usable_key_unique (out : outside) (k k' : string) :
  usable_key out k -> usable_key out k' -> k = k'.
Proof. intros [H _] [H' _]. congruence. Qed.

Lemma usable_key_eqb (out : outside) (k : string) :
  usable_key out k -> (k =? EmptyString) = false.
Proof. intros [_ H]. now apply String.eqb_neq. Qed.

(** Case analysis on the shape of [run out], in goal and hypotheses. *)
Ltac run_cases out :=
  let res := fresh "res" in
  let E := fresh "E" in
  let S := fresh "S" in
  pose proof (run_shape_total out) as S;
  remember (run out) as res eqn:E in *; clear E;
  destruct S; cbn [fst snd trace globals extend form_world] in *.

(** Split a membership in an explicit list into its cases. *)
Ltac in_cases H :=
  cbn in H;
  repeat match type of H with
         | _ \/ _ => destruct H as [H|H]
         | False => contradiction
         end;
  try discriminate H.

(** X1: every run of the script has one of seven shapes: halted without a
    key, form only, empty question refused, unknown persona, answered,
    failed with the error caught, or interrupted by a non-[Exception]. *)
Theorem every_run_has_a_shape (out : outside) : run_shape out (run out).
Proof. exact (run_shape_total out). Qed.

(** ** Invariants of every run *)


(** X3: a call goes out only when the key is usable, the button was
    pressed, the question is not empty and the selected persona is in the
    catalog; it is made with the client built from that key, and its payload
    is built from that persona's instruction and the question as typed. *)
Theorem call_provenance (out : outside) (call : api_call) :
  In call (calls_of (trace (snd (run out)))) ->
  exists k i : string,
    usable_key out k /\
    button_return out = true /\
    text_area_return out <> EmptyString /\
    dict_get expert_roles (radio_return out) = Some i /\
    call = (mkOpenAI k, request_payload (text_area_return out) i).
Proof.
  intros Hin.
  run_cases out; rewrite ?calls_of_app in Hin; in_cases Hin;
    subst call; exists k, i; repeat split; assumption || apply H.
Qed.

Lemma call_provenance_witness :
  exists k i : string,
    usable_key hello_submission k /\
    button_return hello_submission = true /\
    text_area_return hello_submission <> EmptyString /\
    dict_get expert_roles (radio_return hello_submission) = Some i /\
    (mkOpenAI "sk-test", request_payload "How are you?" historian_instruction) =
      (mkOpenAI k, request_payload (text_area_return hello_submission) i).
Proof.
  apply (call_provenance hello_submission
           (mkOpenAI "sk-test",
            request_payload "How are you?" historian_instruction)).
  cbn. left. reflexivity.
Defined.

(** X4: the validation warning appears only for a pressed button with an
    empty question, always with the same text, and then no call was made:
    a non-empty question never gets the warning. *)
Theorem warning_only_for_empty_question (out : outside) (body : string) :
  In (StWarning body) (trace (snd (run out))) ->
  button_return out = true /\
  text_area_return out = EmptyString /\
  body = "質問を入力してください。" /\
  calls_of (trace (snd (run out))) = [].
Proof.
  intros Hin.
  run_cases out; try (apply in_app_or in Hin; destruct Hin as [Hin|Hin]);
    in_cases Hin.
  injection Hin as <-. repeat split; assumption.
Qed.

Lemma warning_only_for_empty_question_witness :
  button_return empty_submission = true /\
  text_area_return empty_submission = EmptyString /\
  "質問を入力してください。" = "質問を入力してください。" /\
  calls_of (trace (snd (run empty_submission))) = [].
Proof.
  apply (warning_only_for_empty_question empty_submission).
  cbn. tauto.
Defined.

(** X5: whenever the spinner was put up, the last thing the run did was to
    take it down: an answer, a caught error, an unknown persona and an
    interrupt all leave the [with] block through its exit. *)
Theorem spinner_is_always_removed (out : outside) (text : string) :
  In (StSpinnerEnter text) (trace (snd (run out))) ->
  exists pre : list effect,
    trace (snd (run out)) = (pre ++ [StSpinnerExit])%list.
Proof.
  intros Hin.
  run_cases out;
    try (apply in_app_or in Hin; destruct Hin as [Hin|Hin]);
    in_cases Hin;
    match goal with
    | |- exists pre, (?l ++ ?d)%list = _ =>
        exists (l ++ removelast d)%list;
        rewrite <- app_assoc; reflexivity
    end.
Qed.

Lemma spinner_is_always_removed_witness :
  exists pre : list effect,
    trace (snd (run interrupted_submission)) = (pre ++ [StSpinnerExit])%list.
Proof.
  apply (spinner_is_always_removed interrupted_submission
           "専門家が回答を考えています...").
  cbn. tauto.
Defined.

(** X6: when the page configuration is set, it is the first thing the run
    does to the page, and it is set once: the error box of a missing key
    comes only on the path that stops before it. *)
Theorem page_config_comes_first (out : outside) (title layout : string) :
  In (StSetPageConfig title layout) (trace (snd (run out))) ->
  exists rest : list effect,
    trace (snd (run out)) = StSetPageConfig title layout :: rest /\
    forall title' layout', ~ In (StSetPageConfig title' layout') rest.
Proof.
  intros Hin.
  run_cases out;
    try (apply in_app_or in Hin; destruct Hin as [Hin|Hin]);
    in_cases Hin;
    injection Hin as <- <-;
    eexists; (split; [reflexivity|]);
    intros title' layout' Hrest; in_cases Hrest.
Qed.

Lemma page_config_comes_first_witness :
  exists rest : list effect,
    trace (snd (run offline_submission)) =
      StSetPageConfig "専門家チャットアプリ" "centered" :: rest /\
    forall title' layout', ~ In (StSetPageConfig title' layout') rest.
Proof.
  apply (page_config_comes_first offline_submission).
  cbn. tauto.
Defined.

(** X7: with a usable key, whatever is submitted and whatever the service
    does, the run ends with [client] bound to the client of that key and
    [expert_roles] bound to the catalog of lines 40-45, unchanged. *)
Theorem run_keeps_globals (out : outside) (k : string) :
  usable_key out k ->
  globals (snd (run out)) =
    {| var_client := Some (mkOpenAI k);
       var_expert_roles := Some expert_roles |}.
Proof.
  intros Hkey.
  run_cases out;
    try (rewrite (usable_key_unique out k k0) by assumption; reflexivity).
  destruct Hkey as [Hk Hne]. destruct H as [H|H]; congruence.
Qed.

Lemma run_keeps_globals_witness :
  globals (snd (run offline_submission)) =
    {| var_client := Some (mkOpenAI "sk-test");
       var_expert_roles := Some expert_roles |}.
Proof.
  apply (run_keeps_globals offline_submission "sk-test").
  split; [reflexivity | discriminate].
Defined.

(** X8: a value is written to the page only as the answer block of a run
    that ends normally after exactly one call: the write comes directly
    under the subheader of the selected persona and is followed only by the
    removal of the spinner. *)
Theorem answer_is_under_heading (out : outside) (v : py_value) :
  In (StWrite v) (trace (snd (run out))) ->
  fst (run out) = Normal tt /\
  length (calls_of (trace (snd (run out)))) = 1 /\
  exists pre : list effect,
    trace (snd (run out)) =
      (pre ++ [StSubheader (subheader_of (radio_return out));
               StWrite v; StSpinnerExit])%list.
Proof.
  intros Hin.
  run_cases out;
    try (apply in_app_or in Hin; destruct Hin as [Hin|Hin]);
    in_cases Hin;
    injection Hin as <-;
    (split; [reflexivity|]);
    (split; [rewrite calls_of_app; reflexivity|]).
  - exists (page_form ++
            [StSpinnerEnter "専門家が回答を考えています...";
             ChatCompletionsCreate (handler_call out k i)])%list.
    rewrite <- app_assoc. reflexivity.
  - exists (page_form ++
            [StSpinnerEnter "専門家が回答を考えています...";
             ChatCompletionsCreate (handler_call out k i);
             StError (error_report e)])%list.
    rewrite <- app_assoc. reflexivity.
Qed.

Lemma answer_is_under_heading_witness :
  fst (run hello_submission) = Normal tt /\
  length (calls_of (trace (snd (run hello_submission)))) = 1 /\
  exists pre : list effect,
    trace (snd (run hello_submission)) =
      (pre ++ [StSubheader (subheader_of (radio_return hello_submission));
               StWrite (PyStr "Hello, adventurer."); StSpinnerExit])%list.
Proof.
  apply (answer_is_under_heading hello_submission (PyStr "Hello, adventurer.")).
  cbn. tauto.
Defined.

(** X9: the form is drawn exactly when the environment gives a non-empty
    key: a key set to the empty string stops the run like a missing one. *)
Theorem form_iff_usable_key (out : outside) :
  existsb is_form_element (trace (snd (run out))) =
  match os_environ out "OPENAI_API_KEY" with
  | Some k => negb (k =? EmptyString)
  | None => false
  end.
Proof.
  run_cases out;
    try (rewrite (proj1 H), (usable_key_eqb out k H), ?existsb_app;
         reflexivity).
  destruct H as [H|H]; rewrite H; reflexivity.
Qed.

Example empty_key_run :
  run empty_key_start =
    (Raised (mkExc StopException EmptyString), halted_world).
Proof. reflexivity. Qed.

(** ** What [except Exception] lets through *)

(** X10: an exception of the service that is not an [Exception] is not
    caught: [get_llm_response] raises it after the call, without an error
    box, and the button handler passes it on after taking the spinner down,
    rendering neither subheader nor answer. *)
Theorem non_exceptions_propagate (out : outside) (q i : string) (w : world)
    (c : OpenAI) (e : exc) :
  var_client (globals w) = Some c ->
  chat_completions out (calls_of (trace w)) (c, request_payload q i) =
    Raises e ->
  isinstance e Exception = false ->
  get_llm_response out q i w =
    (Raised e, log (ChatCompletionsCreate (c, request_payload q i)) w) /\
  forall sel : string,
    q <> EmptyString ->
    var_expert_roles (globals w) = Some expert_roles ->
    dict_get expert_roles sel = Some i ->
    on_submit out sel q w =
      (Raised e,
       extend w [StSpinnerEnter "専門家が回答を考えています...";
                 ChatCompletionsCreate (c, request_payload q i);
                 StSpinnerExit]).
Proof.
  intros Hc Hr He.
  assert (Hget : forall w0, var_client (globals w0) = Some c ->
            calls_of (trace w0) = calls_of (trace w) ->
            get_llm_response out q i w0 =
              (Raised e,
               log (ChatCompletionsCreate (c, request_payload q i)) w0)).
  { intros w0 Hc0 Hh.
    rewrite get_llm_response_eq, get_llm_response_try_eq, Hc0, Hh. cbv zeta.
    now rewrite Hr, He. }
  split.
  - apply Hget; [exact Hc | reflexivity].
  - intros sel Hq Hroles Hsel.
    rewrite (on_submit_eq out sel q i w Hq Hroles Hsel).
    rewrite Hget.
    + unfold log, extend; cbn [globals trace].
      rewrite <- !app_assoc. reflexivity.
    + exact Hc.
    + apply calls_of_log_ui. reflexivity.
Qed.

Lemma non_exceptions_propagate_witness :
  get_llm_response interrupted_submission "How are you?"
    historian_instruction ready_world =
    (Raised (mkExc KeyboardInterrupt EmptyString),
     log (ChatCompletionsCreate
            (mkOpenAI "sk-test",
             request_payload "How are you?" historian_instruction))
       ready_world) /\
  on_submit interrupted_submission "歴史学者" "How are you?" ready_world =
    (Raised (mkExc KeyboardInterrupt EmptyString),
     extend ready_world
       [StSpinnerEnter "専門家が回答を考えています...";
        ChatCompletionsCreate
          (mkOpenAI "sk-test",
           request_payload "How are you?" historian_instruction);
        StSpinnerExit]).
Proof.
  destruct (non_exceptions_propagate interrupted_submission "How are you?"
              historian_instruction ready_world (mkOpenAI "sk-test")
              (mkExc KeyboardInterrupt EmptyString)
              eq_refl eq_refl eq_refl) as [Hget Hsubmit].
  split.
  - exact Hget.
  - apply Hsubmit.
    + discriminate.
    + reflexivity.
    + reflexivity.
Defined.

(** X11: the outcomes of [get_llm_response] are these and no others: it
    returns the content of the first choice of the service's answer, or it
    returns the fixed failure string, or it raises what the service raised,
    and that is then no [Exception]. *)
Theorem get_llm_response_outcomes (out : outside) (q i : string) (w : world) :
  match fst (get_llm_response out q i w) with
  | Normal v =>
      v = PyStr failure_message \/
      exists c r ch rest,
        var_client (globals w) = Some c /\
        chat_completions out (calls_of (trace w)) (c, request_payload q i) =
          Returns r /\
        choices r = ch :: rest /\
        v = content (message ch)
  | Raised e =>
      isinstance e Exception = false /\
      exists c,
        var_client (globals w) = Some c /\
        chat_completions out (calls_of (trace w)) (c, request_payload q i) =
          Raises e
  end.
Proof.
  rewrite get_llm_response_result.
  destruct (var_client (globals w)) as [c|]; [|now left].
  destruct (chat_completions out (calls_of (trace w)) (c, request_payload q i))
    as [r|e] eqn:Hr.
  - destruct (choices r) as [|ch rest] eqn:Hch; [now left|].
    right. exists c, r, ch, rest. repeat split; assumption || reflexivity.
  - destruct (isinstance e Exception) eqn:He; [now left|].
    split; [exact He|]. exists c. split; [reflexivity | exact Hr].
Qed.

(** ** Where errors and calls show on the page *)

(** X12: an error box has one of two origins: the missing-key message of
    a run that stopped at startup, or the report of an [Exception] raised
    by the call or by the handling of its response, in a run that then
    renders the failure string. *)
Theorem error_box_origin (out : outside) (body : string) :
  In (StError body) (trace (snd (run out))) ->
  (body = missing_key_message /\
   fst (run out) = Raised (mkExc StopException EmptyString) /\
   forall k, ~ usable_key out k) \/
  (exists k i e,
      usable_key out k /\
      dict_get expert_roles (radio_return out) = Some i /\
      remote_failure out [] (handler_call out k i) e /\
      isinstance e Exception = true /\
      body = error_report e /\
      fst (run out) = Normal tt /\
      In (StWrite (PyStr failure_message)) (trace (snd (run out)))).
Proof.
  intros Hin.
  run_cases out;
    try (apply in_app_or in Hin; destruct Hin as [Hin|Hin]);
    in_cases Hin; injection Hin as <-.
  - left. split; [reflexivity|]. split; [reflexivity|].
    intros k [Hk Hne]. destruct H as [H|H]; congruence.
  - right. exists k, i, e. repeat split; try assumption; try apply H.
    apply in_or_app. right. cbn. tauto.
Qed.

Lemma error_box_origin_witness :
  ("LLMからの回答取得中にエラーが発生しました: Connection error." = missing_key_message /\
   fst (run offline_submission) = Raised (mkExc StopException EmptyString) /\
   forall k, ~ usable_key offline_submission k) \/
  (exists k i e,
      usable_key offline_submission k /\
      dict_get expert_roles (radio_return offline_submission) = Some i /\
      remote_failure offline_submission [] (handler_call offline_submission k i) e /\
      isinstance e Exception = true /\
      "LLMからの回答取得中にエラーが発生しました: Connection error." = error_report e /\
      fst (run offline_submission) = Normal tt /\
      In (StWrite (PyStr failure_message)) (trace (snd (run offline_submission)))).
Proof.
  apply (error_box_origin offline_submission).
  cbn. tauto.
Defined.

(** X13: the call goes out while the spinner is up: in the trace it comes
    directly after the spinner is shown, which comes directly after the
    form. *)
Theorem call_is_made_under_spinner (out : outside) (call : api_call) :
  In (ChatCompletionsCreate call) (trace (snd (run out))) ->
  exists post : list effect,
    trace (snd (run out)) =
      (page_form ++
       StSpinnerEnter "専門家が回答を考えています..." ::
       ChatCompletionsCreate call :: post)%list.
Proof.
  intros Hin.
  run_cases out;
    try (apply in_app_or in Hin; destruct Hin as [Hin|Hin]);
    in_cases Hin; injection Hin as <-; eexists; reflexivity.
Qed.

Lemma call_is_made_under_spinner_witness :
  exists post : list effect,
    trace (snd (run hello_submission)) =
      (page_form ++
       StSpinnerEnter "専門家が回答を考えています..." ::
       ChatCompletionsCreate
         (mkOpenAI "sk-test",
          request_payload "How are you?" historian_instruction) :: post)%list.
Proof.
  apply (call_is_made_under_spinner hello_submission).
  cbn. tauto.
Defined.
